(** * mcp-proxy: the bearer-token middleware and the non-error server

    A shallow embedding of [src/mcp_proxy/auth_middleware.py]
    ([TokenAuthMiddleware]) and [src/mcp_proxy/non_error_server.py]
    ([NonErrorServer._handle_request]), with the properties the
    specification states about them.

    Conventions.
    - A Python [str] is a [string]; each character stands for the code point
      of the same number (0..255).
    - A Python object is its attribute dictionary, a [gmap string value];
      [hasattr], attribute reads and attribute writes are lookups and
      inserts on it.
    - A coroutine that may raise returns an [outcome]; state that the code
      mutates (the logger, the [request_ctx] context variable, the
      responder) is passed explicitly. *)

From Stdlib Require Import ZArith String Ascii List.
From stdpp Require Import base option gmap strings list.
Import ListNotations.

Local Open Scope string_scope.
Local Open Scope Z_scope.

(** ** Python values and objects *)

#[warnings="-register-all"] Inductive value : Type :=
  | VNone
  | VBool (b : bool)
  | VInt (z : Z)
  | VStr (s : string)
  | VList (l : list value)
  | VObj (attrs : gmap string value).

(** An object is its attribute dictionary. *)
Abbreviation object := (gmap string value).

(** [bool(v)]: Python truthiness. *)
Definition truthy (v : value) : bool :=
  match v with
  | VNone => false
  | VBool b => b
  | VInt z => negb (z =? 0)
  | VStr s => negb (String.eqb s "")
  | VList l => match l with [] => false | _ => true end
  | VObj _ => true
  end.

(** [hasattr(o, name)]. *)
Definition hasattr (o : object) (name : string) : bool :=
  match o !! name with Some _ => true | None => false end.

(** [o.name = v]. *)
Definition setattr (o : object) (name : string) (v : value) : object :=
  <[name := v]> o.

(** ** Exceptions and outcomes *)

(** The three classes of exception the [except] clauses of the source tell
    apart: [McpError] (a subclass of [Exception]) carries its [error]
    payload; [Exception_] is any other instance of [Exception], with the
    text [str(err)] gives; [BaseException_] is an exception outside the
    [Exception] hierarchy ([KeyboardInterrupt], [SystemExit],
    [asyncio.CancelledError]). *)
Inductive exn : Type :=
  | McpError (error : object)
  | Exception_ (text : string)
  | BaseException_ (text : string).

(** [str(err)]; [McpError.__init__] passes [error.message] to
    [Exception.__init__]. *)
Definition str_exn (e : exn) : string :=
  match e with
  | McpError error =>
      match error !! "message" with Some (VStr m) => m | _ => "" end
  | Exception_ text => text
  | BaseException_ text => text
  end.

(** [isinstance(e, Exception)]. *)
Definition isinstance_Exception (e : exn) : bool :=
  match e with
  | McpError _ | Exception_ _ => true
  | BaseException_ _ => false
  end.

Inductive outcome (A : Type) : Type :=
  | Returned (a : A)
  | Raised (e : exn).
Arguments Returned {A} a.
Arguments Raised {A} e.

(** ** Logging *)

Inductive level : Type := DEBUG | INFO | WARNING | ERROR.

(** A record of one [logger] call: level, message (or %-format) and the
    arguments of the format. *)
Record log_record : Type := LogRecord {
  levelname : level;
  msg : string;
  args : list string
}.

Abbreviation log := (list log_record).

Definition logger_call (lv : level) (m : string) (a : list string) (lg : log) : log :=
  lg ++ [LogRecord lv m a].

(** ** Strings: the [str] methods the middleware uses *)

Module Str.

(** [c.isspace()] for the code points below 256: TAB..CR, FS..US, SPACE,
    NEL (0x85) and NBSP (0xA0). *)
Definition isspace (c : ascii) : bool :=
  let n := N_of_ascii c in
  ((9 <=? n) && (n <=? 13) || (28 <=? n) && (n <=? 32)
   || (n =? 133) || (n =? 160))%N.

(** [s.lstrip()]. *)
Fixpoint lstrip (s : string) : string :=
  match s with
  | EmptyString => EmptyString
  | String c s' => if isspace c then lstrip s' else s
  end.

Fixpoint rev_append (s acc : string) : string :=
  match s with
  | EmptyString => acc
  | String c s' => rev_append s' (String c acc)
  end.

Definition rev (s : string) : string := rev_append s EmptyString.

(** [s.rstrip()]. *)
Definition rstrip (s : string) : string := rev (lstrip (rev s)).

(** [s.strip()]. *)
Definition strip (s : string) : string := rstrip (lstrip s).

(** Every character of [s] is whitespace. *)
Fixpoint blank (s : string) : bool :=
  match s with
  | EmptyString => true
  | String c s' => isspace c && blank s'
  end.

(** [len(s)]. *)
Definition len (s : string) : Z := Z.of_nat (String.length s).

(** [s.startswith(p)]. *)
Fixpoint startswith (s p : string) {struct p} : bool :=
  match p with
  | EmptyString => true
  | String a p' =>
      match s with
      | EmptyString => false
      | String b s' => if Ascii.eqb a b then startswith s' p' else false
      end
  end.

(** [s[n:]] for [n >= 0]: the characters from index [n] on, the empty
    string when [s] is shorter. *)
Fixpoint slice_from (n : nat) (s : string) : string :=
  match n with
  | O => s
  | S n' => match s with
            | EmptyString => EmptyString
            | String _ s' => slice_from n' s'
            end
  end.

(** [c.lower()] for the code points below 256: the capitals A..Z and the
    Latin-1 capitals U+00C0..U+00DE (but not the sign U+00D7) have their
    small letter 32 places further. *)
Definition lower_char (c : ascii) : ascii :=
  let n := N_of_ascii c in
  if ((65 <=? n) && (n <=? 90)
      || (192 <=? n) && (n <=? 222) && negb (n =? 215))%N
  then ascii_of_N (n + 32) else c.

(** [s.lower()]. *)
Fixpoint lower (s : string) : string :=
  match s with
  | EmptyString => EmptyString
  | String c s' => String (lower_char c) (lower s')
  end.

End Str.

(** ** [auth_middleware.py] *)

Module Auth.

(** [os.environ], and [os.getenv(name)]. *)
Definition os_getenv (environ : gmap string string) (name : string) : option string :=
  environ !! name.

(** A Starlette request: [request.url.path] and the raw header list, whose
    names the server stores in lower case. *)
Record Request : Type := {
  url_path : string;
  headers : list (string * string)
}.

(** [request.headers.get(key)]: the value of the first header whose name is
    [key.lower()], [None] when there is none. *)
Definition headers_get (hs : list (string * string)) (key : string) : option string :=
  snd <$> List.find (fun kv => String.eqb (fst kv) (Str.lower key)) hs.

(** A response: its status code and its (JSON) content. *)
Record Response : Type := {
  status_code : Z;
  content : value
}.

Definition JSONResponse (status_code : Z) (content : value) : Response :=
  {| status_code := status_code; content := content |}.

(** [call_next]: the downstream handler. *)
Abbreviation Callable := (Request -> outcome Response).

Record TokenAuthMiddleware : Type := {
  auth_token : option string;
  enabled : bool;
  public_paths : gset string
}.

(** The name of the environment variable [__init__] reads. *)
Definition TOKEN_VAR : string := "MCP_PROXY_AUTH_TOKEN".

(** [TokenAuthMiddleware.__init__]: the new middleware and the records it
    logs. *)
Definition __init__ (environ : gmap string string) : TokenAuthMiddleware * log :=
  let auth_token := os_getenv environ "MCP_PROXY_AUTH_TOKEN" in
  let enabled :=
    match auth_token with
    | Some t => Str.len (Str.strip t) >? 0
    | None => false
    end in
  let public_paths : gset string := {[ "/status" ]} in
  ({| auth_token := auth_token; enabled := enabled; public_paths := public_paths |},
   if enabled
   then logger_call INFO "Token authentication is ENABLED - all endpoints except /status require authentication" [] []
   else logger_call INFO "Token authentication is DISABLED - set MCP_PROXY_AUTH_TOKEN environment variable to enable" [] []).

Definition missing_header_content : value :=
  VObj {[ "error" := VStr "Missing authorization header";
          "message" := VStr "Include 'Authorization: Bearer <token>' header" ]}.

Definition invalid_format_content : value :=
  VObj {[ "error" := VStr "Invalid authorization format";
          "message" := VStr "Use 'Bearer <token>' format" ]}.

Definition invalid_token_content : value :=
  VObj {[ "error" := VStr "Invalid token";
          "message" := VStr "The provided token is not valid" ]}.

(** [TokenAuthMiddleware.dispatch]: the records it logs and what it returns
    (or raises, when [call_next] does). *)
Definition dispatch (self : TokenAuthMiddleware) (request : Request)
    (call_next : Callable) : log * outcome Response :=
  if negb (enabled self) then ([], call_next request)
  else if bool_decide (url_path request ∈ public_paths self) then ([], call_next request)
  else
    let auth_header := headers_get (headers request) "Authorization" in
    match auth_header with
    | None =>
        (logger_call WARNING "Authentication failed: Missing authorization header for %s"
           [url_path request] [],
         Returned (JSONResponse 401 missing_header_content))
    | Some auth_header =>
        if String.eqb auth_header "" then (* [not auth_header] *)
          (logger_call WARNING "Authentication failed: Missing authorization header for %s"
             [url_path request] [],
           Returned (JSONResponse 401 missing_header_content))
        else if negb (Str.startswith auth_header "Bearer ") then
          (logger_call WARNING "Authentication failed: Invalid authorization format for %s"
             [url_path request] [],
           Returned (JSONResponse 401 invalid_format_content))
        else
          let token := Str.slice_from 7 auth_header in
          if bool_decide (Some token ≠ auth_token self) then
            (logger_call WARNING "Authentication failed: Invalid token for %s"
               [url_path request] [],
             Returned (JSONResponse 403 invalid_token_content))
          else
            (logger_call DEBUG "Authentication successful for %s" [url_path request] [],
             call_next request)
    end.

End Auth.

(** ** The claim's own wording of the gate's decision *)

Module AuthSpec.
Import Auth.

Inductive decision : Type :=
  | Forward
  | Deny (status : Z) (body : value).

(** What a decision amounts to as the result of [dispatch]. *)
Definition enact (d : decision) (request : Request) (call_next : Callable) : outcome Response :=
  match d with
  | Forward => call_next request
  | Deny status body => Returned (JSONResponse status body)
  end.

(** The decision as the specification words it: header absent, then prefix,
    then token. *)
Definition claimed_decision (secret : string) (auth_header : option string) : decision :=
  match auth_header with
  | None => Deny 401 missing_header_content
  | Some h =>
      if negb (Str.startswith h "Bearer ") then Deny 401 invalid_format_content
      else if negb (String.eqb (Str.slice_from 7 h) secret) then Deny 403 invalid_token_content
      else Forward
  end.

(** The same with an empty header value counted as a missing header. *)
Definition amended_decision (secret : string) (auth_header : option string) : decision :=
  match auth_header with
  | None => Deny 401 missing_header_content
  | Some h =>
      if String.eqb h "" then Deny 401 missing_header_content
      else claimed_decision secret (Some h)
  end.

End AuthSpec.

(** ** [non_error_server.py] *)

Module Server.

(** [hasattr(o, name) and o.name]. *)
Definition attr_true (o : object) (name : string) : bool :=
  match o !! name with
  | Some v => truthy v
  | None => false
  end.

(** [types.ErrorData(code=..., message=..., data=...)]; it has no [isError]
    field. *)
Definition ErrorData (code : Z) (message : string) (data : value) : object :=
  {[ "code" := VInt code; "message" := VStr message; "data" := data ]}.

(** A [types.ServerResult]: the envelope around a result, as handlers
    return it. *)
Record ServerResult : Type := { root : object }.

(** What [message.respond] is given: a [ServerResult] or a bare [ErrorData]. *)
Inductive response : Type :=
  | OfResult (result : ServerResult)
  | OfError (error : object).

(** The object whose attributes are the payload of the response. *)
Definition payload (r : response) : object :=
  match r with
  | OfResult result => root result
  | OfError error => error
  end.

(** The error indicator the response exposes, read as a boolean; [None] when
    it has no [isError] attribute. *)
Definition error_indicator (r : response) : option bool :=
  truthy <$> payload r !! "isError".

(** [req]: [type(req)] (by name) and the rest of the request. *)
Record ClientRequest : Type := {
  type_name : string;
  params : value
}.

(** [message]: the responder of one request. *)
Record RequestResponder : Type := {
  request_id : value;
  request_meta : option value
}.

Section NonErrorServer.

Variables ServerSession LifespanResultT AppState : Type.

(** [types.METHOD_NOT_FOUND], a constant of the [mcp] package. *)
Variable METHOD_NOT_FOUND : Z.

(** The text of the [pydantic.ValidationError] that [types.ServerResult]
    raises on an [ErrorData]. *)
Variable validation_error_text : object -> string.

(** [types.ServerResult(error)] for [error] an instance of [ErrorData].
    [ServerResult] is a pydantic root model over the result types, and
    [ErrorData] is not one of them: the constructor validates its argument
    and raises [ValidationError], an [Exception]. *)
Definition ServerResult_of_ErrorData (error : object) : outcome ServerResult :=
  Raised (Exception_ (validation_error_text error)).

Record RequestContext : Type := {
  ctx_request_id : value;
  ctx_meta : option value;
  ctx_session : ServerSession;
  ctx_lifespan_context : LifespanResultT
}.

(** The token [ContextVar.set] returns holds the value the variable had
    before (unset is [None]). *)
Record Token : Type := { old_value : option RequestContext }.

(** What a dispatch reads and writes: the context variable [request_ctx]
    ([None] while unset), the state downstream handlers work on, what has
    been sent through responders (request id and response), and the log. *)
Record World : Type := {
  request_ctx : option RequestContext;
  app_state : AppState;
  responses : list (value * response);
  records : log
}.

Definition logger (lv : level) (m : string) (w : World) : World :=
  {| request_ctx := request_ctx w; app_state := app_state w;
     responses := responses w; records := logger_call lv m [] (records w) |}.

(** [request_ctx.set(v)]. *)
Definition request_ctx_set (v : RequestContext) (w : World) : Token * World :=
  ({| old_value := request_ctx w |},
   {| request_ctx := Some v; app_state := app_state w;
      responses := responses w; records := records w |}).

(** [request_ctx.reset(token)]. *)
Definition request_ctx_reset (token : Token) (w : World) : World :=
  {| request_ctx := old_value token; app_state := app_state w;
     responses := responses w; records := records w |}.

(** [message.respond(response)]. *)
Definition respond (message : RequestResponder) (r : response) (w : World) : World :=
  {| request_ctx := request_ctx w; app_state := app_state w;
     responses := responses w ++ [(request_id message, r)]; records := records w |}.

(** A request handler: a coroutine over the context variable and the state
    of the application, which returns a [ServerResult] or raises. *)
Definition handler_t : Type :=
  ClientRequest -> option RequestContext -> AppState ->
  option RequestContext * AppState * outcome ServerResult.

(** [await handler(req)] in world [w]. *)
Definition await_handler (handler : handler_t) (req : ClientRequest) (w : World)
    : World * outcome ServerResult :=
  let '(var, st, result) := handler req (request_ctx w) (app_state w) in
  ({| request_ctx := var; app_state := st;
      responses := responses w; records := records w |}, result).

Record NonErrorServer : Type := {
  request_handlers : gmap string handler_t
}.

(** [RequestContext(message.request_id, message.request_meta, session,
    lifespan_context)]: the context a dispatch binds. *)
Definition new_context (message : RequestResponder) (session : ServerSession)
    (lifespan_context : LifespanResultT) : RequestContext :=
  {| ctx_request_id := request_id message; ctx_meta := request_meta message;
     ctx_session := session; ctx_lifespan_context := lifespan_context |}.

(** What [handler] does when it runs with the context of the dispatch
    bound. *)
Definition handler_run (handler : handler_t) (message : RequestResponder)
    (req : ClientRequest) (session : ServerSession)
    (lifespan_context : LifespanResultT) (w : World)
    : option RequestContext * AppState * outcome ServerResult :=
  handler req (Some (new_context message session lifespan_context)) (app_state w).

(** [NonErrorServer._handle_request]. *)
Definition _handle_request (self : NonErrorServer) (message : RequestResponder)
    (req : ClientRequest) (session : ServerSession)
    (lifespan_context : LifespanResultT) (raise_exceptions : bool)
    (w : World) : World * outcome unit :=
  let w := logger INFO ("Processing request of type " ++ type_name req) w in
  match request_handlers self !! type_name req with
  | Some handler =>
      let w := logger DEBUG ("Dispatching request of type " ++ type_name req) w in
      let token : option Token := None in
      (* try *)
      let '(tok, w) :=
        request_ctx_set (new_context message session lifespan_context) w in
      let token := Some tok in
      let '(w, result) := await_handler handler req w in
      let '(w, response) :=
        match result with
        | Returned response =>
            if attr_true (root response) "isError" then
              let w := logger DEBUG "Converting error response to non-error for JSON readability" w in
              (w, Returned (OfResult {| root := setattr (root response) "isError" (VBool false) |}))
            else (w, Returned (OfResult response))
        | Raised (McpError error as err) =>
            let w := logger ERROR ("MCP error: " ++ str_exn err) w in
            let response := error in
            if hasattr response "isError" then
              (w, Returned (OfError (setattr response "isError" (VBool false))))
            else (w, Returned (OfError response))
        | Raised (Exception_ _ as err) =>
            let w := logger ERROR ("Exception: " ++ str_exn err) w in
            if raise_exceptions then (w, Raised err)
            else
              let response := ErrorData 0 (str_exn err) VNone in
              match ServerResult_of_ErrorData response with
              | Returned response =>
                  if hasattr (root response) "isError" then
                    (w, Returned (OfResult {| root := setattr (root response) "isError"
                                                        (VBool false) |}))
                  else (w, Returned (OfResult response))
              | Raised err => (w, Raised err) (* leaves the [except] clause *)
              end
        | Raised (BaseException_ _ as err) => (w, Raised err)
        end in
      (* finally *)
      let w :=
        match token with
        | Some token => request_ctx_reset token w
        | None => w
        end in
      match response with
      | Returned response =>
          let w := respond message response w in
          (logger DEBUG "Response sent" w, Returned tt)
      | Raised err => (w, Raised err)
      end
  | None =>
      let error_response := ErrorData METHOD_NOT_FOUND "Method not found" VNone in
      let w := respond message (OfError error_response) w in
      (logger DEBUG "Response sent" w, Returned tt)
  end.

End NonErrorServer.

Arguments ctx_request_id {_ _} _.
Arguments ctx_meta {_ _} _.
Arguments ctx_session {_ _} _.
Arguments ctx_lifespan_context {_ _} _.
Arguments old_value {_ _} _.
Arguments request_ctx {_ _ _} _.
Arguments app_state {_ _ _} _.
Arguments responses {_ _ _} _.
Arguments records {_ _ _} _.
Arguments request_handlers {_ _ _} _.
Arguments new_context {_ _} _ _ _.
Arguments handler_run {_ _ _} _ _ _ _ _ _.
Arguments request_ctx_set {_ _ _} _ _.
Arguments request_ctx_reset {_ _ _} _ _.
Arguments respond {_ _ _} _ _ _.
Arguments logger {_ _ _} _ _ _.
Arguments await_handler {_ _ _} _ _ _.
Arguments _handle_request {_ _ _} _ _ _ _ _ _ _ _ _.

End Server.

(** ** Concrete inputs *)

Module Examples.
Import Auth.

Definition env_secret : gmap string string := {[ "MCP_PROXY_AUTH_TOKEN" := "s3cr3t" ]}.

Definition env_blank : gmap string string := {[ "MCP_PROXY_AUTH_TOKEN" := "   " ]}.

(** A downstream handler that answers 200 to everything. *)
Definition downstream : Callable :=
  fun _ => Returned (JSONResponse 200 (VObj {[ "message" := VStr "success" ]})).

Definition get (path : string) (hs : list (string * string)) : Request :=
  {| url_path := path; headers := hs |}.

End Examples.

Module ServerExamples.
Import Server.

(** The session and the lifespan context are [unit]; the state of the
    application counts the runs of handlers. *)
Abbreviation handler := (handler_t unit unit nat).
Abbreviation world := (World unit unit nat).

(** A tool call that reports an error in its result. *)
Definition call_tool : handler :=
  fun _ var n =>
    (var, S n,
     Returned {| root := {[ "content" := VList [VStr "bad input"];
                            "isError" := VBool true ]} |}).

(** A handler that raises [McpError] with an ordinary [ErrorData]. *)
Definition list_tools : handler :=
  fun _ var n => (var, S n, Raised (McpError (ErrorData (-32602) "bad input" VNone))).

(** A handler that raises [ValueError("boom")]. *)
Definition ping : handler :=
  fun _ var n => (var, S n, Raised (Exception_ "boom")).

Definition server : NonErrorServer unit unit nat :=
  {| request_handlers :=
       {[ "CallToolRequest" := call_tool;
          "ListToolsRequest" := list_tools;
          "PingRequest" := ping ]} |}.

Definition message : RequestResponder :=
  {| request_id := VInt 1; request_meta := None |}.

Definition request (name : string) : ClientRequest :=
  {| type_name := name; params := VNone |}.

Definition w0 : world :=
  {| request_ctx := None; app_state := 0%nat; responses := []; records := [] |}.

Definition METHOD_NOT_FOUND : Z := -32601.

(** A text for the [ValidationError] of [types.ServerResult]. *)
Definition validation_error_text : object -> string :=
  fun _ => "10 validation errors for ServerResult".

(** One dispatch of [name] from [w0]. *)
Definition run (name : string) (raise_exceptions : bool) : world * outcome unit :=
  _handle_request METHOD_NOT_FOUND validation_error_text server message
    (request name) tt tt raise_exceptions w0.

End ServerExamples.

Module MoreExamples.
Import Auth.

(** A secret with a leading space, as a quoted value in a shell would give. *)
Definition env_padded : gmap string string := {[ "MCP_PROXY_AUTH_TOKEN" := " s3cr3t" ]}.

(** The format strings [dispatch] logs with. *)
Definition dispatch_formats : list string :=
  [ "Authentication failed: Missing authorization header for %s";
    "Authentication failed: Invalid authorization format for %s";
    "Authentication failed: Invalid token for %s";
    "Authentication successful for %s" ].

End MoreExamples.

(** * Properties *)

(** ** Strings *)

Module StrFacts.
Import Str.

Lemma strip_empty : strip "" = "".
Proof. reflexivity. Qed.

Lemma strip_nonempty (s : string) : strip s <> "" -> s <> "".
Proof. intros H ->. apply H, strip_empty. Qed.

Lemma startswith_app (p t : string) : startswith (p ++ t) p = true.
Proof.
  induction p as [|a p IH]; [reflexivity|].
  change (String a p ++ t) with (String a (p ++ t)). simpl.
  rewrite Ascii.eqb_refl. exact IH.
Qed.

Lemma startswith_inv (p s : string) :
  startswith s p = true -> exists t, s = p ++ t.
Proof.
  revert s. induction p as [|a p IH]; intros s H; simpl in *.
  - exists s. reflexivity.
  - destruct s as [|b s]; [discriminate|].
    destruct (Ascii.eqb_spec a b) as [->|]; [|discriminate].
    destruct (IH _ H) as [t ->]. exists t. reflexivity.
Qed.

Lemma startswith_false (p s : string) :
  startswith s p = false <-> forall t, s <> p ++ t.
Proof.
  split.
  - intros H t ->. rewrite startswith_app in H. discriminate.
  - intros H. destruct (startswith s p) eqn:E; [|reflexivity].
    destruct (startswith_inv _ _ E) as [t ->]. exfalso. exact (H t eq_refl).
Qed.

(** [strip] leaves nothing exactly of the strings made of whitespace. *)

Lemma lstrip_blank (s : string) : lstrip s = "" <-> blank s = true.
Proof.
  induction s as [|c s IH]; simpl.
  - split; reflexivity.
  - destruct (isspace c); simpl; [exact IH|].
    split; discriminate.
Qed.

Lemma lstrip_head (s : string) :
  lstrip s = "" \/ exists c t, lstrip s = String c t /\ isspace c = false.
Proof.
  induction s as [|c s IH]; simpl.
  - left. reflexivity.
  - destruct (isspace c) eqn:E; [exact IH|].
    right. exists c, s. split; [reflexivity | exact E].
Qed.

Lemma blank_lstrip (s : string) : blank (lstrip s) = true <-> lstrip s = "".
Proof.
  destruct (lstrip_head s) as [-> | (c & t & -> & Hc)].
  - split; reflexivity.
  - simpl. rewrite Hc. split; discriminate.
Qed.

Lemma blank_rev_append (s acc : string) :
  blank (rev_append s acc) = blank s && blank acc.
Proof.
  revert acc. induction s as [|c s IH]; intros acc; simpl; [reflexivity|].
  rewrite IH. simpl. destruct (isspace c), (blank s); reflexivity.
Qed.

Lemma blank_rev (s : string) : blank (rev s) = blank s.
Proof. unfold rev. rewrite blank_rev_append. simpl. apply andb_true_r. Qed.

Lemma rev_append_empty (s acc : string) :
  rev_append s acc = "" <-> s = "" /\ acc = "".
Proof.
  revert acc. induction s as [|c s IH]; intros acc; simpl.
  - split; [intros ->; split; reflexivity | intros [_ ->]; reflexivity].
  - rewrite IH. split; [intros [_ H] | intros [H _]]; discriminate H.
Qed.

Lemma rev_empty (s : string) : rev s = "" <-> s = "".
Proof.
  unfold rev. rewrite rev_append_empty.
  split; [intros [-> _]; reflexivity | intros ->; split; reflexivity].
Qed.

Lemma strip_blank (s : string) : strip s = "" <-> blank s = true.
Proof.
  unfold strip, rstrip.
  rewrite rev_empty, lstrip_blank, blank_rev, blank_lstrip.
  apply lstrip_blank.
Qed.

Example strip_inner_space : strip "  a b	 " = "a b".
Proof. reflexivity. Qed.

End StrFacts.

(** ** The access gate *)

Module AuthFacts.
Import Auth AuthSpec.

Lemma init_auth_token environ :
  auth_token (__init__ environ).1 = os_getenv environ TOKEN_VAR.
Proof. reflexivity. Qed.

Lemma init_public_paths environ :
  public_paths (__init__ environ).1 = {[ "/status" ]}.
Proof. reflexivity. Qed.

Lemma init_enabled_unset environ :
  os_getenv environ TOKEN_VAR = None -> enabled (__init__ environ).1 = false.
Proof. unfold __init__, TOKEN_VAR. intros ->. reflexivity. Qed.

Lemma init_enabled_set environ t :
  os_getenv environ TOKEN_VAR = Some t ->
  enabled (__init__ environ).1 = negb (String.eqb (Str.strip t) "").
Proof.
  unfold __init__, TOKEN_VAR. intros ->. simpl.
  destruct (Str.strip t); reflexivity.
Qed.

Lemma init_enabled_blank environ t :
  os_getenv environ TOKEN_VAR = Some t -> Str.strip t = "" ->
  enabled (__init__ environ).1 = false.
Proof. intros H E. rewrite (init_enabled_set _ _ H), E. reflexivity. Qed.

Lemma init_enabled_secret environ t :
  os_getenv environ TOKEN_VAR = Some t -> Str.strip t <> "" ->
  enabled (__init__ environ).1 = true.
Proof.
  intros H E. rewrite (init_enabled_set _ _ H).
  destruct (String.eqb_spec (Str.strip t) ""); [contradiction | reflexivity].
Qed.

(** With gating disabled the request is forwarded before anything else is
    looked at. *)
Lemma dispatch_disabled self request call_next :
  enabled self = false -> dispatch self request call_next = ([], call_next request).
Proof. unfold dispatch. intros ->. reflexivity. Qed.

(** A public path is forwarded whether gating is enabled or not. *)
Lemma dispatch_public self request call_next :
  url_path request ∈ public_paths self ->
  dispatch self request call_next = ([], call_next request).
Proof.
  unfold dispatch. intros Hin. destruct (enabled self); simpl; [|reflexivity].
  rewrite bool_decide_eq_true_2 by exact Hin. reflexivity.
Qed.

(** On a protected path of an enabled gate, [dispatch] returns what the
    decision with the empty header counted as missing amounts to. *)
Lemma dispatch_protected self secret request call_next :
  enabled self = true -> auth_token self = Some secret ->
  url_path request ∉ public_paths self ->
  (dispatch self request call_next).2 =
  enact (amended_decision secret (headers_get (headers request) "Authorization"))
        request call_next.
Proof.
  unfold dispatch. intros -> Htok Hnotin.
  change (negb true) with false. cbv match.
  rewrite bool_decide_eq_false_2 by exact Hnotin.
  destruct (headers_get (headers request) "Authorization") as [h|]; [|reflexivity].
  unfold amended_decision, claimed_decision.
  destruct (String.eqb h ""); [reflexivity|].
  destruct (Str.startswith h "Bearer ");
    [change (negb true) with false | change (negb false) with true];
    cbv match; [|reflexivity].
  rewrite Htok.
  destruct (String.eqb_spec (Str.slice_from 7 h) secret) as [E|E].
  - rewrite bool_decide_eq_false_2 by (intros Hne; apply Hne; congruence). reflexivity.
  - rewrite bool_decide_eq_true_2 by congruence. reflexivity.
Qed.

Lemma init_protected environ secret request :
  os_getenv environ TOKEN_VAR = Some secret -> Str.strip secret <> "" ->
  url_path request <> "/status" ->
  enabled (__init__ environ).1 = true /\
  auth_token (__init__ environ).1 = Some secret /\
  url_path request ∉ public_paths (__init__ environ).1.
Proof.
  intros Henv Hs Hp. split; [|split].
  - eapply init_enabled_secret; eauto.
  - rewrite init_auth_token. exact Henv.
  - rewrite init_public_paths. set_solver.
Qed.

End AuthFacts.

Section GateProperties.
Import Auth AuthSpec AuthFacts Examples.

(** C1, as the specification states it, fails: an [Authorization] header
    that is present with the empty string as its value does not start with
    ["Bearer "], so the stated order of checks answers 401 "Invalid
    authorization format", while [dispatch] answers 401 "Missing
    authorization header". *)
Lemma dispatch_empty_header_counterexample :
  let self := (__init__ env_secret).1 in
  let request := get "/test" [("authorization", "")] in
  enabled self = true /\
  (url_path request ∉ public_paths self) /\
  headers_get (headers request) "Authorization" = Some "" /\
  enact (claimed_decision "s3cr3t" (Some "")) request downstream
    = Returned (JSONResponse 401 invalid_format_content) /\
  (dispatch self request downstream).2
    = Returned (JSONResponse 401 missing_header_content) /\
  (dispatch self request downstream).2
    ≠ enact (claimed_decision "s3cr3t" (headers_get (headers request) "Authorization"))
            request downstream.
Proof.
  cbv zeta. repeat split.
  - rewrite init_public_paths. set_solver.
  - vm_compute. discriminate.
Qed.

(** C1 (amended): on a non-public path of an enabled gate, [dispatch]
    decides in this order: the [Authorization] header absent or empty gives
    401 "Missing authorization header"; otherwise a header that is not
    ["Bearer "] followed by a token gives 401 "Invalid authorization format";
    otherwise a token different from the secret gives 403 "Invalid token";
    otherwise the request is forwarded and the result of the downstream
    handler is returned as it is. *)
Theorem dispatch_protected_checks environ secret request call_next :
  os_getenv environ TOKEN_VAR = Some secret ->
  Str.strip secret <> "" ->
  url_path request <> "/status" ->
  let self := (__init__ environ).1 in
  let auth_header := headers_get (headers request) "Authorization" in
  (auth_header = None \/ auth_header = Some "" ->
     (dispatch self request call_next).2
       = Returned (JSONResponse 401 missing_header_content)) /\
  (forall h, auth_header = Some h -> h <> "" ->
     (forall token, h <> "Bearer " ++ token) ->
     (dispatch self request call_next).2
       = Returned (JSONResponse 401 invalid_format_content)) /\
  (forall token, auth_header = Some ("Bearer " ++ token) -> token <> secret ->
     (dispatch self request call_next).2
       = Returned (JSONResponse 403 invalid_token_content)) /\
  (auth_header = Some ("Bearer " ++ secret) ->
     (dispatch self request call_next).2 = call_next request).
Proof.
  intros Henv Hs Hp self auth_header.
  destruct (init_protected _ _ _ Henv Hs Hp) as (Hen & Htok & Hnotin).
  pose proof (dispatch_protected self secret request call_next Hen Htok Hnotin) as D.
  fold auth_header in D. rewrite D. clear D.
  repeat split.
  - intros [-> | ->]; reflexivity.
  - intros h -> Hne Hpre. unfold amended_decision, claimed_decision.
    destruct (String.eqb_spec h ""); [contradiction|].
    apply StrFacts.startswith_false in Hpre. rewrite Hpre. reflexivity.
  - intros token -> Hne. unfold amended_decision, claimed_decision.
    change (String.eqb ("Bearer " ++ token) "") with false. cbv match.
    rewrite StrFacts.startswith_app.
    change (Str.slice_from 7 ("Bearer " ++ token)) with token.
    destruct (String.eqb_spec token secret); [contradiction | reflexivity].
  - intros ->. unfold amended_decision, claimed_decision.
    change (String.eqb ("Bearer " ++ secret) "") with false. cbv match.
    rewrite StrFacts.startswith_app.
    change (Str.slice_from 7 ("Bearer " ++ secret)) with secret.
    rewrite String.eqb_refl. reflexivity.
Qed.

(** A wrong token and the right one, with the secret ["s3cr3t"]. *)
Lemma dispatch_protected_checks_witness :
  (dispatch (__init__ env_secret).1 (get "/test" [("authorization", "Bearer wrong")])
            downstream).2
    = Returned (JSONResponse 403 invalid_token_content) /\
  (dispatch (__init__ env_secret).1 (get "/test" [("authorization", "Bearer s3cr3t")])
            downstream).2
    = downstream (get "/test" [("authorization", "Bearer s3cr3t")]).
Proof.
  split.
  - refine (proj1 (proj2 (proj2
      (dispatch_protected_checks env_secret "s3cr3t"
         (get "/test" [("authorization", "Bearer wrong")]) downstream _ _ _)))
      "wrong" _ _).
    + reflexivity.
    + vm_compute. discriminate.
    + simpl. discriminate.
    + reflexivity.
    + discriminate.
  - refine (proj2 (proj2 (proj2
      (dispatch_protected_checks env_secret "s3cr3t"
         (get "/test" [("authorization", "Bearer s3cr3t")]) downstream _ _ _))) _).
    + reflexivity.
    + vm_compute. discriminate.
    + simpl. discriminate.
    + reflexivity.
Defined.

(** C3: when [MCP_PROXY_AUTH_TOKEN] is unset, or empty once stripped of
    surrounding whitespace, the middleware is built with [enabled] false and
    [dispatch] forwards every request, whatever its path and headers: it
    logs nothing, reads no header and returns what the downstream handler
    returns, so no 401 or 403 is of its making. *)
Theorem dispatch_disabled_gate_forwards environ :
  (os_getenv environ TOKEN_VAR = None \/
   exists t, os_getenv environ TOKEN_VAR = Some t /\ Str.strip t = "") ->
  enabled (__init__ environ).1 = false /\
  forall request call_next,
    dispatch (__init__ environ).1 request call_next = ([], call_next request).
Proof.
  intros H.
  assert (enabled (__init__ environ).1 = false) as Hen.
  { destruct H as [H | (t & H & E)].
    - exact (init_enabled_unset _ H).
    - exact (init_enabled_blank _ _ H E). }
  split; [exact Hen|].
  intros request call_next. exact (dispatch_disabled _ _ _ Hen).
Qed.

(** The secret made of three spaces. *)
Lemma dispatch_disabled_gate_forwards_witness :
  enabled (__init__ env_blank).1 = false /\
  forall request call_next,
    dispatch (__init__ env_blank).1 request call_next = ([], call_next request).
Proof.
  apply (dispatch_disabled_gate_forwards env_blank).
  right. exists "   ". split; reflexivity.
Defined.

(** C4: a request whose path is exactly ["/status"] is forwarded whether the
    gate is enabled or not and whatever its [Authorization] header; and
    ["/status"] is the only exempt path: it is the one member of
    [public_paths], and on every other path an enabled gate turns down the
    request that has no [Authorization] header. *)
Theorem status_is_the_only_public_path environ :
  let self := (__init__ environ).1 in
  public_paths self = {[ "/status" ]} /\
  (forall request call_next,
     url_path request = "/status" ->
     dispatch self request call_next = ([], call_next request)) /\
  (forall request call_next,
     enabled self = true ->
     url_path request <> "/status" ->
     headers_get (headers request) "Authorization" = None ->
     (dispatch self request call_next).2
       = Returned (JSONResponse 401 missing_header_content)).
Proof.
  intros self. split; [reflexivity|]. split.
  - intros request call_next Hp. apply dispatch_public.
    rewrite Hp. subst self. rewrite init_public_paths. set_solver.
  - intros request call_next Hen Hp Hh.
    unfold dispatch. rewrite Hen. change (negb true) with false. cbv match.
    rewrite bool_decide_eq_false_2.
    + rewrite Hh. reflexivity.
    + subst self. rewrite init_public_paths. set_solver.
Qed.

(** ["/status"] and ["/test"] without header, with the secret ["s3cr3t"]. *)
Lemma status_is_the_only_public_path_witness :
  dispatch (__init__ env_secret).1 (get "/status" []) downstream
    = ([], downstream (get "/status" [])) /\
  (dispatch (__init__ env_secret).1 (get "/test" []) downstream).2
    = Returned (JSONResponse 401 missing_header_content).
Proof.
  destruct (status_is_the_only_public_path env_secret) as (_ & Hpub & Hother).
  split.
  - apply Hpub. reflexivity.
  - apply Hother.
    + reflexivity.
    + simpl. discriminate.
    + reflexivity.
Defined.

(** C10: on a non-public path of a gate enabled with a non-blank secret, the
    header ["Bearer "] (an empty token) passes the prefix check and is
    answered 403 "Invalid token": not 401, and the downstream handler is not
    called. *)
Theorem dispatch_empty_bearer_token_forbidden environ secret request call_next :
  os_getenv environ TOKEN_VAR = Some secret ->
  Str.strip secret <> "" ->
  url_path request <> "/status" ->
  headers_get (headers request) "Authorization" = Some "Bearer " ->
  Str.startswith "Bearer " "Bearer " = true /\
  dispatch (__init__ environ).1 request call_next
    = ([LogRecord WARNING "Authentication failed: Invalid token for %s" [url_path request]],
       Returned (JSONResponse 403 invalid_token_content)).
Proof.
  intros Henv Hs Hp Hh. split; [reflexivity|].
  destruct (init_protected _ _ _ Henv Hs Hp) as (Hen & Htok & Hnotin).
  unfold dispatch. rewrite Hen. change (negb true) with false. cbv match.
  rewrite bool_decide_eq_false_2 by exact Hnotin.
  rewrite Hh, Htok.
  change (String.eqb "Bearer " "") with false.
  change (Str.startswith "Bearer " "Bearer ") with true.
  change (negb true) with false. cbv match.
  change (Str.slice_from 7 "Bearer ") with "".
  rewrite bool_decide_eq_true_2; [reflexivity|].
  intros E. injection E as E. apply (StrFacts.strip_nonempty _ Hs). symmetry. exact E.
Qed.

(** The header ["Bearer "] on ["/test"], with the secret ["s3cr3t"]. *)
Lemma dispatch_empty_bearer_token_forbidden_witness :
  Str.startswith "Bearer " "Bearer " = true /\
  dispatch (__init__ env_secret).1 (get "/test" [("authorization", "Bearer ")]) downstream
    = ([LogRecord WARNING "Authentication failed: Invalid token for %s" ["/test"]],
       Returned (JSONResponse 403 invalid_token_content)).
Proof.
  apply (dispatch_empty_bearer_token_forbidden env_secret "s3cr3t").
  - reflexivity.
  - vm_compute. discriminate.
  - simpl. discriminate.
  - reflexivity.
Defined.

End GateProperties.

(** ** The response normalizer *)

Module ServerFacts.
Import Server.

Lemma ErrorData_no_isError code message data :
  ErrorData code message data !! "isError" = None.
Proof. reflexivity. Qed.

Lemma hasattr_lookup (o : object) name :
  hasattr o name = true <-> is_Some (o !! name).
Proof.
  unfold hasattr. destruct (o !! name); split; intros H; try reflexivity.
  - eauto.
  - discriminate.
  - destruct H; discriminate.
Qed.

Lemma hasattr_false (o : object) name : hasattr o name = false <-> o !! name = None.
Proof. unfold hasattr. destruct (o !! name); split; congruence. Qed.

Lemma setattr_same (o : object) name v : setattr o name v !! name = Some v.
Proof. apply lookup_insert_eq. Qed.

Lemma setattr_other (o : object) name name' v :
  name <> name' -> setattr o name v !! name' = o !! name'.
Proof. apply lookup_insert_ne. Qed.

(** An indicator that does not read as true is false or absent. *)
Lemma attr_true_false_indicator (o : object) :
  attr_true o "isError" = false ->
  truthy <$> o !! "isError" = None \/ truthy <$> o !! "isError" = Some false.
Proof.
  unfold attr_true. destruct (o !! "isError") as [v|]; simpl.
  - intros ->. right. reflexivity.
  - intros _. left. reflexivity.
Qed.

Section Dispatch.

Context {ServerSession LifespanResultT AppState : Type}.
Variable METHOD_NOT_FOUND : Z.
Variable validation_error_text : object -> string.
Variable self : NonErrorServer ServerSession LifespanResultT AppState.
Variable message : RequestResponder.
Variable req : ClientRequest.
Variable session : ServerSession.
Variable lifespan_context : LifespanResultT.
Variable raise_exceptions : bool.
Variable w : World ServerSession LifespanResultT AppState.

Local Abbreviation dispatched :=
  (_handle_request METHOD_NOT_FOUND validation_error_text self message req session
     lifespan_context raise_exceptions w).
Local Abbreviation handler_run handler :=
  (handler_run handler message req session lifespan_context w).

(** No handler for [type(req)]: the bare "Method not found" [ErrorData] is
    sent and nothing else changes. *)
Lemma handle_not_found :
  request_handlers self !! type_name req = None ->
  dispatched.2 = Returned tt /\
  responses dispatched.1
    = (responses w ++ [(request_id message,
                        OfError (ErrorData METHOD_NOT_FOUND "Method not found" VNone))])%list /\
  request_ctx dispatched.1 = request_ctx w /\
  app_state dispatched.1 = app_state w.
Proof.
  unfold _handle_request. intros ->. repeat split.
Qed.

(** A handler for [type(req)]: the world and the result after the dispatch,
    by what the handler did. *)
Lemma handle_found handler var st result :
  request_handlers self !! type_name req = Some handler ->
  handler_run handler = (var, st, result) ->
  request_ctx dispatched.1 = request_ctx w /\
  app_state dispatched.1 = st /\
  match result with
  | Returned response =>
      dispatched.2 = Returned tt /\
      responses dispatched.1
        = (responses w ++
           [(request_id message,
             OfResult (if attr_true (root response) "isError"
                       then {| root := setattr (root response) "isError" (VBool false) |}
                       else response))])%list
  | Raised (McpError error) =>
      dispatched.2 = Returned tt /\
      responses dispatched.1
        = (responses w ++
           [(request_id message,
             OfError (if hasattr error "isError"
                      then setattr error "isError" (VBool false) else error))])%list
  | Raised (Exception_ text) =>
      if raise_exceptions
      then dispatched.2 = Raised (Exception_ text) /\
           responses dispatched.1 = responses w
      else dispatched.2
             = Raised (Exception_ (validation_error_text (ErrorData 0 text VNone))) /\
           responses dispatched.1 = responses w
  | Raised (BaseException_ text) =>
      dispatched.2 = Raised (BaseException_ text) /\
      responses dispatched.1 = responses w
  end.
Proof.
  unfold handler_run, _handle_request. intros -> Hrun.
  unfold await_handler, request_ctx_set. cbn [request_ctx app_state logger].
  rewrite Hrun.
  destruct result as [response | [error | text | text]].
  - destruct (attr_true (root response) "isError"); repeat split.
  - destruct (hasattr error "isError"); repeat split.
  - destruct raise_exceptions; repeat split.
  - repeat split.
Qed.

End Dispatch.

End ServerFacts.

Section NormalizerProperties.
Import Server ServerFacts.

Context {ServerSession LifespanResultT AppState : Type}.
Variable METHOD_NOT_FOUND : Z.
Variable validation_error_text : object -> string.
Variable self : NonErrorServer ServerSession LifespanResultT AppState.
Variable message : RequestResponder.
Variable req : ClientRequest.
Variable session : ServerSession.
Variable lifespan_context : LifespanResultT.
Variable raise_exceptions : bool.
Variable w : World ServerSession LifespanResultT AppState.

Local Abbreviation dispatched :=
  (_handle_request METHOD_NOT_FOUND validation_error_text self message req session
     lifespan_context raise_exceptions w).
Local Abbreviation handler_run handler :=
  (handler_run handler message req session lifespan_context w).
Local Abbreviation found Hlookup Hrun :=
  (handle_found METHOD_NOT_FOUND validation_error_text self message req session
     lifespan_context raise_exceptions w _ _ _ _ Hlookup Hrun).
Local Abbreviation not_found Hlookup :=
  (handle_not_found METHOD_NOT_FOUND validation_error_text self message req session
     lifespan_context raise_exceptions w Hlookup).

(** One response is [r]: the sent list is the old one and [r]. *)
Local Ltac one_sent := eexists; split; [reflexivity | constructor; [|constructor]].
(** No response. *)
Local Ltac none_sent := exists []; rewrite app_nil_r; split; constructor.

(** C2: whatever a dispatch sends (after normal completion of the handler,
    after an [McpError], after another exception turned into an
    [ErrorData], or for a request type without handler), the error indicator
    of the sent object is false or the object has no [isError] attribute. *)
Theorem sent_response_never_marked_error :
  exists sent,
    responses dispatched.1 = (responses w ++ sent)%list /\
    Forall (fun ir => error_indicator ir.2 = None \/ error_indicator ir.2 = Some false)
           sent.
Proof.
  destruct (request_handlers self !! type_name req) as [handler|] eqn:Hlookup.
  - destruct (handler_run handler) as [[var st] result] eqn:Hrun.
    destruct (found Hlookup Hrun) as (_ & _ & Hpath).
    destruct result as [response | [error | text | text]].
    + destruct Hpath as [_ ->]. one_sent.
      unfold error_indicator. cbn [snd payload].
      destruct (attr_true (root response) "isError") eqn:E; cbn [root].
      * right. rewrite setattr_same. reflexivity.
      * apply attr_true_false_indicator, E.
    + destruct Hpath as [_ ->]. one_sent.
      unfold error_indicator. cbn [snd payload].
      destruct (hasattr error "isError") eqn:E.
      * right. rewrite setattr_same. reflexivity.
      * left. apply hasattr_false in E. rewrite E. reflexivity.
    + destruct raise_exceptions.
      * destruct Hpath as [_ ->]. none_sent.
      * destruct Hpath as [_ ->]. none_sent.
    + destruct Hpath as [_ ->]. none_sent.
  - destruct (not_found Hlookup) as (_ & -> & _).
    one_sent. left. reflexivity.
Qed.

(** C5 (amended): when the handler raises [McpError], the [error] it carries
    is what is sent: every attribute other than [isError] is the one of the
    payload, [isError] is [False] when the payload has this attribute, and
    the sent object has no [isError] when the payload has none. *)
Theorem mcp_error_payload_sent handler var st error :
  request_handlers self !! type_name req = Some handler ->
  handler_run handler = (var, st, Raised (McpError error)) ->
  exists sent,
    dispatched.2 = Returned tt /\
    responses dispatched.1 = (responses w ++ [(request_id message, OfError sent)])%list /\
    (forall name, name <> "isError" -> sent !! name = error !! name) /\
    sent !! "isError" = (fun _ => VBool false) <$> error !! "isError".
Proof.
  intros Hlookup Hrun.
  destruct (found Hlookup Hrun) as (_ & _ & Hout & Hsent).
  eexists. split; [exact Hout|]. split; [exact Hsent|].
  destruct (hasattr error "isError") eqn:E.
  - split.
    + intros name Hne. apply setattr_other. congruence.
    + rewrite setattr_same. apply hasattr_lookup in E. destruct E as [v ->]. reflexivity.
  - split; [reflexivity|].
    apply hasattr_false in E. rewrite E. reflexivity.
Qed.

(** C6 (what the code does): when the handler raises an exception that is
    not an [McpError], with [raise_exceptions] the exception is raised again
    and nothing is sent, as the specification says. Without it the
    [ErrorData(code=0, message=str(err), data=None)] is built, but
    [types.ServerResult] refuses it: [_handle_request] raises the
    [ValidationError] and sends nothing, where the specification has the
    payload sent. *)
Theorem unrecognized_failure_reraised_or_validation_error handler var st text :
  request_handlers self !! type_name req = Some handler ->
  handler_run handler = (var, st, Raised (Exception_ text)) ->
  (raise_exceptions = true ->
     dispatched.2 = Raised (Exception_ text) /\
     responses dispatched.1 = responses w) /\
  (raise_exceptions = false ->
     dispatched.2
       = Raised (Exception_
                   (validation_error_text
                      (ErrorData 0 (str_exn (Exception_ text)) VNone))) /\
     responses dispatched.1 = responses w).
Proof.
  intros Hlookup Hrun.
  destruct (found Hlookup Hrun) as (_ & _ & Hpath).
  split; intros Hflag; destruct raise_exceptions; try discriminate Hflag;
    exact Hpath.
Qed.

(** C7: for a request whose type has no entry in [request_handlers], the
    payload [ErrorData(code=METHOD_NOT_FOUND, message="Method not found")]
    is sent as it was built: it is not wrapped, no [isError] is written on
    it and it has none; no handler runs and no context is bound. *)
Theorem method_not_found_sent_unchanged :
  request_handlers self !! type_name req = None ->
  dispatched.2 = Returned tt /\
  responses dispatched.1
    = (responses w ++
       [(request_id message,
         OfError (ErrorData METHOD_NOT_FOUND "Method not found" VNone))])%list /\
  error_indicator (OfError (ErrorData METHOD_NOT_FOUND "Method not found" VNone)) = None /\
  request_ctx dispatched.1 = request_ctx w /\
  app_state dispatched.1 = app_state w.
Proof.
  intros Hlookup.
  destruct (not_found Hlookup) as (Hout & Hsent & Hctx & Hst).
  repeat split; assumption.
Qed.

(** C8: when a handler is found, it runs with [request_ctx] bound to the
    context of the dispatch, and when [_handle_request] returns or raises
    [request_ctx] again holds what it held before the dispatch, whatever
    the handler returned or raised and whatever it did to the variable. *)
Theorem context_binding_released handler :
  request_handlers self !! type_name req = Some handler ->
  app_state dispatched.1 = (handler_run handler).1.2 /\
  request_ctx dispatched.1 = request_ctx w.
Proof.
  intros Hlookup.
  destruct (handler_run handler) as [[var st] result] eqn:Hrun.
  destruct (found Hlookup Hrun) as (Hctx & Hst & _).
  split; assumption.
Qed.

(** C9 (amended): a dispatch sends at most one response, and the handler
    runs once (not at all when the type of the request has no handler).
    Apart from the dispatch whose handler raises an [Exception] other than
    [McpError] without [raise_exceptions], which is left out here: the
    dispatch sends exactly one response and returns, unless the exception of
    the handler leaves [_handle_request] (an [Exception] other than
    [McpError] under [raise_exceptions], or an exception outside the
    [Exception] hierarchy), and then it sends none. *)
Theorem at_most_one_response_per_dispatch :
  (exists sent,
     responses dispatched.1 = (responses w ++ sent)%list /\ (length sent <= 1)%nat) /\
  (raise_exceptions = true \/
   (forall handler text,
      request_handlers self !! type_name req = Some handler ->
      (handler_run handler).2 <> Raised (Exception_ text)) ->
   (exists r,
      dispatched.2 = Returned tt /\
      responses dispatched.1 = (responses w ++ [(request_id message, r)])%list) \/
   (exists e handler,
      dispatched.2 = Raised e /\
      responses dispatched.1 = responses w /\
      request_handlers self !! type_name req = Some handler /\
      (handler_run handler).2 = Raised e /\
      ((exists text, e = Exception_ text /\ raise_exceptions = true) \/
       isinstance_Exception e = false))) /\
  app_state dispatched.1
    = match request_handlers self !! type_name req with
      | Some handler => (handler_run handler).1.2
      | None => app_state w
      end.
Proof.
  destruct (request_handlers self !! type_name req) as [handler|] eqn:Hlookup.
  - destruct (handler_run handler) as [[var st] result] eqn:Hrun.
    destruct (found Hlookup Hrun) as (_ & Hst & Hpath).
    split; [|split; [|exact Hst]].
    + destruct result as [response | [error | text | text]].
      * destruct Hpath as [_ ->]. eexists. split; [reflexivity | cbn; lia].
      * destruct Hpath as [_ ->]. eexists. split; [reflexivity | cbn; lia].
      * destruct raise_exceptions; destruct Hpath as [_ ->];
          exists []; rewrite app_nil_r; (split; [reflexivity | cbn; lia]).
      * destruct Hpath as [_ ->].
        exists []. rewrite app_nil_r. split; [reflexivity | cbn; lia].
    + intros Hside.
      destruct result as [response | [error | text | text]].
      * left. destruct Hpath as [Hout Hsent]. eauto.
      * left. destruct Hpath as [Hout Hsent]. eauto.
      * destruct raise_exceptions.
        -- right. destruct Hpath as [Hout Hsent].
           exists (Exception_ text), handler.
           rewrite Hrun. cbn [snd]. repeat split; try assumption. left. eauto.
        -- destruct Hside as [Hflag | Hnone]; [discriminate Hflag|].
           exfalso. apply (Hnone handler text eq_refl).
           rewrite Hrun. reflexivity.
      * right. destruct Hpath as [Hout Hsent].
        exists (BaseException_ text), handler.
        rewrite Hrun. cbn [snd]. repeat split; try assumption. right. reflexivity.
  - destruct (not_found Hlookup) as (Hout & Hsent & _ & Hst).
    split; [|split; [|exact Hst]].
    + rewrite Hsent. eexists. split; [reflexivity | cbn; lia].
    + intros _. left. eauto.
Qed.

End NormalizerProperties.

(** ** The normalizer on concrete dispatches *)

Section NormalizerExamples.
Import Server ServerFacts ServerExamples.

(** C5, as the specification states it, fails: the handler raises
    [McpError] with an ordinary [ErrorData], which has no [isError]; the
    payload is sent as it is, so the emitted response has no error indicator
    instead of an error indicator that is false. *)
Lemma mcp_error_sent_without_indicator_counterexample :
  let error := ErrorData (-32602) "bad input" VNone in
  request_handlers server !! "ListToolsRequest" = Some list_tools /\
  (handler_run list_tools message (request "ListToolsRequest") tt tt w0).2
    = Raised (McpError error) /\
  responses (run "ListToolsRequest" false).1 = [(VInt 1, OfError error)] /\
  error_indicator (OfError error) = None /\
  ~ Forall (fun ir => error_indicator ir.2 = Some false)
           (responses (run "ListToolsRequest" false).1).
Proof.
  cbv zeta. repeat split.
  intros H. apply Forall_inv in H. vm_compute in H. discriminate H.
Qed.

(** The dispatch of [list_tools], which raises [McpError]. *)
Lemma mcp_error_payload_sent_witness :
  exists sent,
    (run "ListToolsRequest" false).2 = Returned tt /\
    responses (run "ListToolsRequest" false).1
      = (responses w0 ++ [(request_id message, OfError sent)])%list /\
    (forall name, name <> "isError" ->
       sent !! name = ErrorData (-32602) "bad input" VNone !! name) /\
    sent !! "isError"
      = (fun _ => VBool false) <$> ErrorData (-32602) "bad input" VNone !! "isError".
Proof.
  unfold run.
  apply (mcp_error_payload_sent METHOD_NOT_FOUND validation_error_text server message
           (request "ListToolsRequest") tt tt false w0 list_tools
           (Some (new_context message tt tt)) 1%nat).
  - reflexivity.
  - reflexivity.
Defined.

(** The dispatch of [ping], which raises [ValueError("boom")], with and
    without [raise_exceptions]. *)
Lemma unrecognized_failure_reraised_or_validation_error_witness :
  ((run "PingRequest" true).2 = Raised (Exception_ "boom") /\
   responses (run "PingRequest" true).1 = responses w0) /\
  ((run "PingRequest" false).2
     = Raised (Exception_ (validation_error_text (ErrorData 0 "boom" VNone))) /\
   responses (run "PingRequest" false).1 = responses w0).
Proof.
  unfold run. split.
  - apply (unrecognized_failure_reraised_or_validation_error METHOD_NOT_FOUND
             validation_error_text server message (request "PingRequest") tt tt true w0
             ping (Some (new_context message tt tt)) 1%nat "boom");
      reflexivity.
  - apply (unrecognized_failure_reraised_or_validation_error METHOD_NOT_FOUND
             validation_error_text server message (request "PingRequest") tt tt false w0
             ping (Some (new_context message tt tt)) 1%nat "boom");
      reflexivity.
Defined.

(** C7, as the specification states it, fails: the no-handler path is not
    the one path on which an error payload leaves without its indicator
    set to false. [list_tools] has a handler, which raises [McpError]; its
    [ErrorData] is sent bare and as it was raised, with no [isError], just
    as the "Method not found" payload is. *)
Lemma mcp_error_also_sent_bare_counterexample :
  let error := ErrorData (-32602) "bad input" VNone in
  request_handlers server !! "ListToolsRequest" = Some list_tools /\
  (handler_run list_tools message (request "ListToolsRequest") tt tt w0).2
    = Raised (McpError error) /\
  responses (run "ListToolsRequest" false).1 = [(VInt 1, OfError error)] /\
  error_indicator (OfError error) = None /\
  ~ (forall name,
       (exists id error,
          In (id, OfError error) (responses (run name false).1) /\
          error_indicator (OfError error) = None) ->
       request_handlers server !! name = None).
Proof.
  cbv zeta. repeat split.
  intros H. specialize (H "ListToolsRequest").
  assert (request_handlers server !! "ListToolsRequest" = None) as Hnone.
  { apply H. exists (VInt 1), (ErrorData (-32602) "bad input" VNone).
    split; [left; reflexivity | reflexivity]. }
  vm_compute in Hnone. discriminate Hnone.
Qed.

(** The dispatch of a request type [server] has no handler for. *)
Lemma method_not_found_sent_unchanged_witness :
  (run "SubscribeRequest" false).2 = Returned tt /\
  responses (run "SubscribeRequest" false).1
    = (responses w0 ++
       [(request_id message,
         OfError (ErrorData METHOD_NOT_FOUND "Method not found" VNone))])%list /\
  error_indicator (OfError (ErrorData METHOD_NOT_FOUND "Method not found" VNone)) = None /\
  request_ctx (run "SubscribeRequest" false).1 = request_ctx w0 /\
  app_state (run "SubscribeRequest" false).1 = app_state w0.
Proof.
  unfold run.
  apply (method_not_found_sent_unchanged METHOD_NOT_FOUND validation_error_text server message
           (request "SubscribeRequest") tt tt false w0).
  reflexivity.
Defined.

(** The binding is released on the path that raises again. *)
Lemma context_binding_released_witness :
  app_state (run "PingRequest" true).1
    = (handler_run ping message (request "PingRequest") tt tt w0).1.2 /\
  request_ctx (run "PingRequest" true).1 = request_ctx w0.
Proof.
  unfold run.
  apply (context_binding_released METHOD_NOT_FOUND validation_error_text server message
           (request "PingRequest") tt tt true w0 ping).
  reflexivity.
Defined.

(** C9, as the specification states it, fails: under [raise_exceptions] the
    handler's [ValueError] is raised again and the dispatch sends no
    response at all. *)
Lemma strict_propagation_sends_nothing_counterexample :
  request_handlers server !! "PingRequest" = Some ping /\
  (run "PingRequest" true).2 = Raised (Exception_ "boom") /\
  responses (run "PingRequest" true).1 = responses w0 /\
  ~ exists r, responses (run "PingRequest" true).1 = (responses w0 ++ [r])%list.
Proof.
  repeat split.
  intros [r H]. vm_compute in H. discriminate H.
Qed.

(** The dispatches of [ping] under [raise_exceptions] and of [call_tool]. *)
Lemma at_most_one_response_per_dispatch_witness :
  (exists e,
     (run "PingRequest" true).2 = Raised e /\
     responses (run "PingRequest" true).1 = responses w0) /\
  (exists sent,
     responses (run "CallToolRequest" false).1 = (responses w0 ++ sent)%list /\
     (length sent <= 1)%nat).
Proof.
  unfold run. split.
  - destruct (at_most_one_response_per_dispatch METHOD_NOT_FOUND validation_error_text
                server message (request "PingRequest") tt tt true w0)
      as (_ & Hcases & _).
    destruct (Hcases (or_introl eq_refl))
      as [(r & Hout & _) | (e & handler & Hout & Hsent & _)].
    + vm_compute in Hout. discriminate Hout.
    + exists e. split; assumption.
  - exact (proj1 (at_most_one_response_per_dispatch METHOD_NOT_FOUND
                    validation_error_text server message (request "CallToolRequest")
                    tt tt false w0)).
Defined.

End NormalizerExamples.

(** * Further properties of the access gate *)

Section GateFurther.
Import Auth AuthSpec AuthFacts Examples MoreExamples.

(** The five ways a call of [dispatch] ends: forwarded without a record,
    one of the three denials with its warning, or forwarded after a
    successful check. *)
Lemma dispatch_shapes self request call_next :
  let warning m := [LogRecord WARNING m [url_path request]] in
  dispatch self request call_next = ([], call_next request) \/
  dispatch self request call_next
    = (warning "Authentication failed: Missing authorization header for %s",
       Returned (JSONResponse 401 missing_header_content)) \/
  dispatch self request call_next
    = (warning "Authentication failed: Invalid authorization format for %s",
       Returned (JSONResponse 401 invalid_format_content)) \/
  dispatch self request call_next
    = (warning "Authentication failed: Invalid token for %s",
       Returned (JSONResponse 403 invalid_token_content)) \/
  dispatch self request call_next
    = ([LogRecord DEBUG "Authentication successful for %s" [url_path request]],
       call_next request).
Proof.
  intros warning. unfold dispatch.
  destruct (enabled self);
    [change (negb true) with false | change (negb false) with true]; cbv match;
    [|left; reflexivity].
  destruct (bool_decide (url_path request ∈ public_paths self)); [left; reflexivity|].
  destruct (headers_get (headers request) "Authorization") as [h|];
    [|right; left; reflexivity].
  destruct (String.eqb h ""); [right; left; reflexivity|].
  destruct (Str.startswith h "Bearer ");
    [change (negb true) with false | change (negb false) with true]; cbv match;
    [|right; right; left; reflexivity].
  destruct (bool_decide (Some (Str.slice_from 7 h) ≠ auth_token self)).
  - right; right; right; left. reflexivity.
  - right; right; right; right. reflexivity.
Qed.

(** X1: the gate is enabled exactly when [MCP_PROXY_AUTH_TOKEN] is set to a
    value with at least one character that is not whitespace. *)
Theorem enabled_iff_secret_not_blank environ :
  enabled (__init__ environ).1 = true <->
  exists t, os_getenv environ TOKEN_VAR = Some t /\ Str.blank t = false.
Proof.
  destruct (os_getenv environ TOKEN_VAR) as [t|] eqn:Henv.
  - rewrite (init_enabled_set _ _ Henv). split.
    + intros H. exists t. split; [reflexivity|].
      destruct (Str.blank t) eqn:B; [|reflexivity].
      apply StrFacts.strip_blank in B. rewrite B in H. discriminate H.
    + intros (t' & E & B). injection E as <-.
      destruct (String.eqb_spec (Str.strip t) "") as [S|]; [|reflexivity].
      apply StrFacts.strip_blank in S. congruence.
  - rewrite (init_enabled_unset _ Henv). split; [discriminate|].
    intros (t & E & _). discriminate E.
Qed.



(** X4: a call of [dispatch] logs at most one record; its format is one of
    four constant strings and its only argument is the path of the request,
    so neither the [Authorization] header nor the secret is logged; and a
    WARNING is logged only together with a 401 or 403 response. *)
Theorem dispatch_logs_path_only self request call_next :
  (length (dispatch self request call_next).1 <= 1)%nat /\
  Forall (fun r => In (msg r) dispatch_formats /\ args r = [url_path request])
         (dispatch self request call_next).1 /\
  (forall r, In r (dispatch self request call_next).1 -> levelname r = WARNING ->
     exists status content,
       (dispatch self request call_next).2 = Returned (JSONResponse status content) /\
       (status = 401 \/ status = 403)).
Proof.
  destruct (dispatch_shapes self request call_next) as [E | [E | [E | [E | E]]]];
    rewrite E; cbn [fst snd length]; (split; [lia|]); split.
  all: try (constructor; [|constructor]; cbn [msg args dispatch_formats In];
            split; [tauto | reflexivity]).
  all: try (constructor).
  all: intros r Hin Hlv; cbn [In] in Hin; try contradiction;
    destruct Hin as [<- | []]; try discriminate Hlv;
    do 2 eexists; (split; [reflexivity|]); auto.
Qed.

(** X5: the secret is compared as it stands in the environment, not
    stripped: when it has surrounding whitespace, the header ["Bearer "]
    followed by the stripped secret is answered 403 "Invalid token". *)
Theorem stripped_secret_is_rejected environ secret request call_next :
  os_getenv environ TOKEN_VAR = Some secret ->
  Str.strip secret <> "" ->
  Str.strip secret <> secret ->
  url_path request <> "/status" ->
  headers_get (headers request) "Authorization" = Some ("Bearer " ++ Str.strip secret) ->
  (dispatch (__init__ environ).1 request call_next).2
    = Returned (JSONResponse 403 invalid_token_content).
Proof.
  intros Henv Hs Hne Hp Hh.
  destruct (init_protected _ _ _ Henv Hs Hp) as (Hen & Htok & Hnotin).
  rewrite (dispatch_protected _ secret request call_next Hen Htok Hnotin), Hh.
  unfold amended_decision, claimed_decision.
  change (String.eqb ("Bearer " ++ Str.strip secret) "") with false. cbv match.
  rewrite StrFacts.startswith_app.
  change (Str.slice_from 7 ("Bearer " ++ Str.strip secret)) with (Str.strip secret).
  destruct (String.eqb_spec (Str.strip secret) secret); [contradiction | reflexivity].
Qed.

(** The secret [" s3cr3t"] and the header ["Bearer s3cr3t"]. *)
Lemma stripped_secret_is_rejected_witness :
  (dispatch (__init__ env_padded).1 (get "/test" [("authorization", "Bearer s3cr3t")])
            downstream).2
    = Returned (JSONResponse 403 invalid_token_content).
Proof.
  apply (stripped_secret_is_rejected env_padded " s3cr3t").
  - reflexivity.
  - vm_compute. discriminate.
  - vm_compute. discriminate.
  - simpl. discriminate.
  - reflexivity.
Defined.

End GateFurther.

(** * Further properties of the response normalizer *)

Section NormalizerFurther.
Import Server ServerFacts.

Context {ServerSession LifespanResultT AppState : Type}.
Variable METHOD_NOT_FOUND : Z.
Variable validation_error_text : object -> string.
Variable self : NonErrorServer ServerSession LifespanResultT AppState.
Variable message : RequestResponder.
Variable req : ClientRequest.
Variable session : ServerSession.
Variable lifespan_context : LifespanResultT.
Variable w : World ServerSession LifespanResultT AppState.

Local Abbreviation dispatched raise_exceptions :=
  (_handle_request METHOD_NOT_FOUND validation_error_text self message req session
     lifespan_context raise_exceptions w).
Local Abbreviation handler_run handler :=
  (handler_run handler message req session lifespan_context w).
Local Abbreviation found raise_exceptions Hlookup Hrun :=
  (handle_found METHOD_NOT_FOUND validation_error_text self message req session
     lifespan_context raise_exceptions w _ _ _ _ Hlookup Hrun).
Local Abbreviation not_found raise_exceptions Hlookup :=
  (handle_not_found METHOD_NOT_FOUND validation_error_text self message req session
     lifespan_context raise_exceptions w Hlookup).

Local Abbreviation processing :=
  (LogRecord INFO ("Processing request of type " ++ type_name req) []).
Local Abbreviation dispatching :=
  (LogRecord DEBUG ("Dispatching request of type " ++ type_name req) []).
Local Abbreviation response_sent := (LogRecord DEBUG "Response sent" []).

(** The records a dispatch adds to the log, by what the handler did. *)
Lemma handle_found_records raise_exceptions handler var st result :
  request_handlers self !! type_name req = Some handler ->
  handler_run handler = (var, st, result) ->
  records (dispatched raise_exceptions).1
    = (records w ++ processing :: dispatching ::
       match result with
       | Returned response =>
           if attr_true (root response) "isError"
           then [LogRecord DEBUG "Converting error response to non-error for JSON readability" [];
                 response_sent]
           else [response_sent]
       | Raised (McpError error) =>
           [LogRecord ERROR ("MCP error: " ++ str_exn (McpError error)) []; response_sent]
       | Raised (Exception_ text) => [LogRecord ERROR ("Exception: " ++ text) []]
       | Raised (BaseException_ _) => []
       end)%list.
Proof.
  unfold Server.handler_run, _handle_request. intros -> Hrun.
  unfold await_handler, request_ctx_set. cbn [request_ctx app_state logger].
  rewrite Hrun.
  destruct result as [response | [error | text | text]].
  - destruct (attr_true (root response) "isError");
      unfold logger, respond, request_ctx_reset; cbn [records]; unfold logger_call;
      rewrite <- !app_assoc; reflexivity.
  - destruct (hasattr error "isError");
      unfold logger, respond, request_ctx_reset; cbn [records]; unfold logger_call;
      rewrite <- !app_assoc; reflexivity.
  - unfold ServerResult_of_ErrorData.
    destruct raise_exceptions;
      unfold logger, respond, request_ctx_reset; cbn [records]; unfold logger_call;
      rewrite <- !app_assoc; reflexivity.
  - unfold logger, respond, request_ctx_reset; cbn [records]; unfold logger_call;
      rewrite <- !app_assoc; reflexivity.
Qed.

Lemma handle_not_found_records raise_exceptions :
  request_handlers self !! type_name req = None ->
  records (dispatched raise_exceptions).1
    = (records w ++ [processing; response_sent])%list.
Proof.
  unfold _handle_request. intros ->.
  unfold logger, respond. cbn [records]. unfold logger_call.
  rewrite <- !app_assoc. reflexivity.
Qed.

(** X6: when the handler returns a result, the envelope that is sent has
    the attributes of that result, except that [isError] is [False] when it
    read as true; a result whose [isError] is absent or false is sent with
    [isError] as it was (none is added). *)
Theorem result_sent_with_indicator_cleared raise_exceptions handler var st response :
  request_handlers self !! type_name req = Some handler ->
  handler_run handler = (var, st, Returned response) ->
  exists sent,
    (dispatched raise_exceptions).2 = Returned tt /\
    responses (dispatched raise_exceptions).1
      = (responses w ++ [(request_id message, OfResult sent)])%list /\
    (forall name, name <> "isError" -> root sent !! name = root response !! name) /\
    root sent !! "isError"
      = if attr_true (root response) "isError" then Some (VBool false)
        else root response !! "isError".
Proof.
  intros Hlookup Hrun.
  destruct (found raise_exceptions Hlookup Hrun) as (_ & _ & Hout & Hsent).
  eexists. split; [exact Hout|]. split; [exact Hsent|].
  destruct (attr_true (root response) "isError"); cbn [root].
  - split; [|apply setattr_same].
    intros name Hne. apply setattr_other. congruence.
  - split; reflexivity.
Qed.

(** X7: a dispatch whose handler returns, or raises nothing but [McpError],
    returns normally and has sent exactly one response, with and without
    [raise_exceptions]; and so does a dispatch whose request type has no
    handler. *)
Theorem recognized_outcomes_always_answered raise_exceptions :
  (forall handler e,
     request_handlers self !! type_name req = Some handler ->
     (handler_run handler).2 = Raised e -> exists error, e = McpError error) ->
  (dispatched raise_exceptions).2 = Returned tt /\
  exists r,
    responses (dispatched raise_exceptions).1
      = (responses w ++ [(request_id message, r)])%list.
Proof.
  intros Hrec.
  destruct (request_handlers self !! type_name req) as [handler|] eqn:Hlookup.
  - destruct (handler_run handler) as [[var st] result] eqn:Hrun.
    destruct (found raise_exceptions Hlookup Hrun) as (_ & _ & Hpath).
    specialize (fun e => Hrec handler e eq_refl). rewrite Hrun in Hrec. cbn [snd] in Hrec.
    destruct result as [response | [error | text | text]].
    + destruct Hpath as [Hout Hsent]. split; [exact Hout | eexists; exact Hsent].
    + destruct Hpath as [Hout Hsent]. split; [exact Hout | eexists; exact Hsent].
    + destruct (Hrec _ eq_refl) as [error E]. discriminate E.
    + destruct (Hrec _ eq_refl) as [error E]. discriminate E.
  - destruct (not_found raise_exceptions Hlookup) as (Hout & Hsent & _).
    split; [exact Hout | eexists; exact Hsent].
Qed.

(** X8: [raise_exceptions] changes nothing unless the handler raises an
    [Exception] that is not an [McpError]: on every other path the world
    after the dispatch and its result are the same with and without it. *)
Theorem raise_exceptions_only_affects_exceptions :
  (forall handler text,
     request_handlers self !! type_name req = Some handler ->
     (handler_run handler).2 <> Raised (Exception_ text)) ->
  dispatched true = dispatched false.
Proof.
  intros Hexc. unfold _handle_request.
  destruct (request_handlers self !! type_name req) as [handler|]; [|reflexivity].
  specialize (fun text => Hexc handler text eq_refl).
  unfold Server.handler_run in Hexc.
  unfold await_handler, request_ctx_set. cbn [request_ctx app_state logger].
  destruct (handler req (Some (new_context message session lifespan_context))
              (app_state w)) as [[var st] result].
  destruct result as [response | [error | text | text]]; try reflexivity.
  exfalso. exact (Hexc text eq_refl).
Qed.

(** X9: an [Exception] the handler raises ([McpError] or not) is logged at
    level ERROR with its text, whether it is then sent as a payload or
    raised again. *)
Theorem handler_exception_is_logged raise_exceptions handler e :
  request_handlers self !! type_name req = Some handler ->
  (handler_run handler).2 = Raised e ->
  isinstance_Exception e = true ->
  exists prefix,
    (prefix = "MCP error: " \/ prefix = "Exception: ") /\
    In (LogRecord ERROR (prefix ++ str_exn e) []) (records (dispatched raise_exceptions).1).
Proof.
  intros Hlookup Hraised Hexc.
  destruct (handler_run handler) as [[var st] result] eqn:Hrun.
  cbn [snd] in Hraised. subst result.
  rewrite (handle_found_records raise_exceptions handler var st _ Hlookup Hrun).
  destruct e as [error | text | text]; [| |discriminate Hexc].
  - exists "MCP error: ". split; [left; reflexivity|].
    apply in_or_app. right. cbn [In]. tauto.
  - exists "Exception: ". split; [right; reflexivity|].
    apply in_or_app. right. cbn [In]. tauto.
Qed.

(** X10: the log of a dispatch begins with the INFO record "Processing
    request of type T", and its last record is DEBUG "Response sent" exactly
    when [_handle_request] returns, that is, when a response was sent. *)
Theorem response_sent_logged_iff_returned raise_exceptions :
  let after :=
    _handle_request METHOD_NOT_FOUND validation_error_text self message req session
      lifespan_context raise_exceptions w in
  exists new,
    records after.1
      = (records w ++
         LogRecord INFO ("Processing request of type " ++ type_name req) [] :: new)%list /\
    (after.2 = Returned tt <-> last new = Some (LogRecord DEBUG "Response sent" [])).
Proof.
  cbv zeta.
  destruct (request_handlers self !! type_name req) as [handler|] eqn:Hlookup.
  - destruct (handler_run handler) as [[var st] result] eqn:Hrun.
    rewrite (handle_found_records raise_exceptions handler var st result Hlookup Hrun).
    destruct (found raise_exceptions Hlookup Hrun) as (_ & _ & Hpath).
    eexists. split; [reflexivity|].
    destruct result as [response | [error | text | text]].
    + destruct Hpath as [-> _].
      destruct (attr_true (root response) "isError"); split; reflexivity.
    + destruct Hpath as [-> _]. split; reflexivity.
    + destruct raise_exceptions; destruct Hpath as [-> _];
        (split; intros H; [discriminate H|]); cbn in H; discriminate H.
    + destruct Hpath as [-> _]. split; intros H; [discriminate H|].
      cbn in H. injection H as H. vm_compute in H. discriminate H.
  - rewrite (handle_not_found_records raise_exceptions Hlookup).
    destruct (not_found raise_exceptions Hlookup) as (-> & _).
    eexists. split; [reflexivity|]. split; reflexivity.
Qed.

End NormalizerFurther.

(** ** Further properties on concrete dispatches *)

Section NormalizerFurtherExamples.
Import Server ServerFacts ServerExamples.

(** The dispatch of [call_tool], whose result has [isError] true. *)
Lemma result_sent_with_indicator_cleared_witness :
  exists sent,
    (run "CallToolRequest" false).2 = Returned tt /\
    responses (run "CallToolRequest" false).1
      = (responses w0 ++ [(request_id message, OfResult sent)])%list /\
    root sent !! "content" = Some (VList [VStr "bad input"]) /\
    root sent !! "isError" = Some (VBool false).
Proof.
  unfold run.
  destruct (result_sent_with_indicator_cleared METHOD_NOT_FOUND validation_error_text server message
              (request "CallToolRequest") tt tt w0 false call_tool
              (Some (new_context message tt tt)) 1%nat
              {| root := {[ "content" := VList [VStr "bad input"];
                            "isError" := VBool true ]} |}
              eq_refl eq_refl)
    as (sent & Hout & Hsent & Hother & Hflag).
  exists sent. split; [exact Hout|]. split; [exact Hsent|]. split.
  - rewrite Hother; [reflexivity | discriminate].
  - exact Hflag.
Defined.

(** The dispatch of [list_tools], which raises [McpError], under
    [raise_exceptions]. *)
Lemma recognized_outcomes_always_answered_witness :
  (run "ListToolsRequest" true).2 = Returned tt /\
  exists r,
    responses (run "ListToolsRequest" true).1
      = (responses w0 ++ [(request_id message, r)])%list.
Proof.
  unfold run.
  apply (recognized_outcomes_always_answered METHOD_NOT_FOUND validation_error_text
           server message (request "ListToolsRequest") tt tt w0 true).
  intros handler e Hlookup Hraised.
  vm_compute in Hlookup. injection Hlookup as <-.
  cbn in Hraised. injection Hraised as <-. eexists. reflexivity.
Defined.

(** The dispatch of [list_tools], which raises [McpError]. *)
Lemma raise_exceptions_only_affects_exceptions_witness :
  run "ListToolsRequest" true = run "ListToolsRequest" false.
Proof.
  unfold run.
  apply (raise_exceptions_only_affects_exceptions METHOD_NOT_FOUND validation_error_text server message
           (request "ListToolsRequest") tt tt w0).
  intros handler text Hlookup Hraised.
  vm_compute in Hlookup. injection Hlookup as <-.
  vm_compute in Hraised. discriminate Hraised.
Defined.

(** The dispatch of [ping], which raises [ValueError("boom")], under
    [raise_exceptions]. *)
Lemma handler_exception_is_logged_witness :
  exists prefix,
    (prefix = "MCP error: " \/ prefix = "Exception: ") /\
    In (LogRecord ERROR (prefix ++ "boom") []) (records (run "PingRequest" true).1).
Proof.
  unfold run.
  apply (handler_exception_is_logged METHOD_NOT_FOUND validation_error_text server message
           (request "PingRequest") tt tt w0 true ping (Exception_ "boom")).
  - reflexivity.
  - reflexivity.
  - reflexivity.
Defined.

End NormalizerFurtherExamples.
